(** * Python sandbox service (python_sandbox/app.py)

    A shallow embedding of the execution engine [execute_python_code] and
    of the request adapter ([execute_code], [handle_snowflake_format],
    [handle_legacy_format]), followed by the properties of the service
    description that concern them.

    What [exec] does with a submitted program is not modelled: the run of
    the worker thread, as the engine observes it after [thread.join], is
    supplied by the environment ([run_thread] below), together with the
    wall clock.  Everything the service itself computes from that
    observation is translated from the source.

    The observation covers what a program can do to the engine from the
    inside: end normally or by any exception, outlive the deadline, close
    a capture buffer, raise an exception whose [str()] or truth test
    raises.  The engine is modelled where [execute_python_code] returns a
    result: an exception that escapes it (one outside the [Exception]
    hierarchy reaching the serving thread's own [try], or one whose
    [str()] raises inside the final handler) leaves no result to speak
    of. *)

From Stdlib Require Import ZArith String Ascii Floats.PrimFloat.
From stdpp Require Import gmap strings list pretty.

#[local] Set Warnings "-register-all".
Local Open Scope Z_scope.

(** ** Values *)

(** A request body as [request.get_json()] returns it: Python's [json]
    module decodes integers to [int], other numbers to [float], objects to
    [dict]. *)
Inductive json : Type :=
  | JNull
  | JBool (b : bool)
  | JInt (z : Z)
  | JFloat (f : float)
  | JStr (s : string)
  | JList (l : list json)
  | JObj (m : gmap string json).

(** The line feed that ends a captured line. *)
Definition LF : string := String (ascii_of_nat 10) EmptyString.

(** Python's truth test, [bool(v)]. *)
Definition truthy (v : json) : bool :=
  match v with
  | JNull => false
  | JBool b => b
  | JInt z => negb (z =? 0)
  | JFloat f => negb (PrimFloat.eqb f 0%float)
  | JStr s => negb (String.eqb s "")
  | JList l => negb (Nat.eqb (length l) 0)
  | JObj m => negb (Nat.eqb (size m) 0)
  end.

(** The exceptions the adapter's own statements can raise. *)
Inductive fault : Type :=
  | TypeError
  | AttributeError
  | KeyError.

(** [k in v] for a string [k]: key membership on a dict, element
    membership on a list, substring test on a str, [TypeError] on a value
    that is not a container. *)
Definition py_in (k : string) (v : json) : fault + bool :=
  match v with
  | JObj m => inr (match m !! k with Some _ => true | None => false end)
  | JList l =>
      inr (existsb (fun x => match x with
                             | JStr s => String.eqb s k
                             | _ => false
                             end) l)
  | JStr s => inr (match String.index 0 k s with Some _ => true | None => false end)
  | _ => inl TypeError
  end.

(** [v.get(k, d)]: only a dict has the method. *)
Definition py_get (k : string) (d : json) (v : json) : fault + json :=
  match v with
  | JObj m => inr (default d (m !! k))
  | _ => inl AttributeError
  end.

(** [v[k]] for a string [k]. *)
Definition py_getitem (k : string) (v : json) : fault + json :=
  match v with
  | JObj m => match m !! k with Some x => inr x | None => inl KeyError end
  | _ => inl TypeError
  end.

(** An instance of Python's [int]: an integer proper, or a [bool], which
    is a subclass of [int] with the values 0 and 1. *)
Inductive pyint : Type :=
  | PInt (z : Z)
  | PBool (b : bool).

Definition int_value (t : pyint) : Z :=
  match t with
  | PInt z => z
  | PBool b => if b then 1 else 0
  end.

(** [isinstance(v, int)], with the instance when it holds. *)
Definition as_int (v : json) : option pyint :=
  match v with
  | JInt z => Some (PInt z)
  | JBool b => Some (PBool b)
  | _ => None
  end.

(** [str(t)], as an f-string interpolates it. *)
Definition py_str (t : pyint) : string :=
  match t with
  | PInt z => pretty z
  | PBool b => if b then "True" else "False"
  end.

(** A number of a response: the [int] literal 0 or a [float]. *)
Inductive pynum : Type :=
  | NInt (z : Z)
  | NFloat (f : float).

(** ** Result model *)

(** The value under the key "error": [None], a string, or the dict with
    the keys "type", "message" and "traceback". *)
Inductive error_val : Type :=
  | ENone
  | EStr (s : string)
  | EDetails (type message traceback : string).

Record result : Type := mkResult {
  success : bool;
  output : string;
  error : error_val;
  execution_time : pynum
}.

Definition set_error (e : error_val) (r : result) : result :=
  mkResult (success r) (output r) e (execution_time r).
Definition set_success (b : bool) (r : result) : result :=
  mkResult b (output r) (error r) (execution_time r).
Definition set_output (o : string) (r : result) : result :=
  mkResult (success r) o (error r) (execution_time r).
Definition set_execution_time (t : pynum) (r : result) : result :=
  mkResult (success r) (output r) (error r) t.

(** ** Exceptions and the worker thread *)

(** An exception of the [Exception] hierarchy whose [str()] returns: what
    the final [except Exception as e] of the engine reads off it. *)
Record plain_exc : Type := mkPlain {
  plain_type_name : string;    (* type(e).__name__ *)
  plain_str : string;          (* str(e) *)
  plain_traceback : string     (* format_exc() while e is handled *)
}.

(** An expression evaluated in the serving thread's [try]: its value, or
    the exception it raises there. *)
Inductive raising (A : Type) : Type :=
  | Gives (a : A)
  | Throws (e : plain_exc).
Arguments Gives {A} a.
Arguments Throws {A} e.

Definition bind {A B : Type} (x : raising A) (k : A -> raising B)
  : raising B :=
  match x with
  | Gives a => k a
  | Throws e => Throws e
  end.

Notation "x <- e ;; k" := (bind e (fun x => k))
  (at level 100, e at next level, right associativity).

(** What the engine reads off the exception object of a program.
    [exc_traceback] is the text [traceback.format_exc()] gives while that
    exception is being handled. *)
Record exc : Type := mkExc {
  exc_type_name : string;      (* type(e).__name__ *)
  exc_str : raising string;    (* str(e) *)
  exc_is_Exception : bool;     (* isinstance(e, Exception) *)
  exc_is_SyntaxError : bool;   (* isinstance(e, SyntaxError) *)
  exc_bool : raising bool;     (* bool(e) *)
  exc_traceback : string
}.

(** [traceback.format_exc()] formats the exception the calling thread is
    handling, given here by its trace; with none being handled it yields
    the line below. *)
Definition format_exc (handled : option string) : string :=
  match handled with
  | Some traceback => traceback
  | None => "NoneType: None" +:+ LF
  end.

(** [getvalue()] of a capture buffer once the program is done with it:
    the text, or the exception the read raises (a [ValueError] when the
    program has closed the buffer), the same at every read. *)
Inductive buffer : Type :=
  | Text (s : string)
  | Closed (e : exc).

(** How the statements inside the worker's [try], up to the end of the
    [with] block, end. *)
Inductive exec_outcome : Type :=
  | Returned
  | Raised (e : exc).

(** What the serving thread finds once [thread.join(timeout)] returns. *)
Inductive thread_run : Type :=
  | Finished (stdout stderr : buffer) (o : exec_outcome)
      (* the thread is dead; [stdout], [stderr] are the two buffers *)
  | StillAlive
      (* [thread.is_alive()] holds: the deadline passed first *)
  | SpawnFailed (e : plain_exc).
      (* creating, starting or joining the thread raised [e] *)

(** The dict shared between the worker and the serving thread. *)
Record execution_state : Type := mkState {
  completed : bool;
  exception : option exc;
  state_output : string;
  error_output : string
}.

Module Engine.

(** The statements of the worker's [except Exception as e], entered with
    the dict at [st]: a read that raises ends the thread where it is. *)
Definition handler (stdout stderr : buffer) (e : exc) (st : execution_state)
  : execution_state :=
  let st := mkState (completed st) (Some e) (state_output st) (error_output st) in
  match stdout with
  | Closed _ => st
  | Text out =>
      let st := mkState (completed st) (exception st) out (error_output st) in
      match stderr with
      | Closed _ => st
      | Text err => mkState true (exception st) (state_output st) err
      end
  end.

(** An exception raised inside the worker's [try], with the dict at [st]:
    the handler takes it when it is an [Exception]; any other ends the
    thread. *)
Definition raised (stdout stderr : buffer) (e : exc) (st : execution_state)
  : execution_state :=
  if exc_is_Exception e then handler stdout stderr e st else st.

(** The worker [execute_code] nested in [execute_python_code]: the dict
    as the thread leaves it. *)
Definition execute_code (stdout stderr : buffer) (o : exec_outcome)
  : execution_state :=
  let execution_state := mkState false None "" "" in
  match o with
  | Raised e => raised stdout stderr e execution_state
  | Returned =>
      match stdout with
      | Closed e => raised stdout stderr e execution_state
      | Text out =>
          let execution_state :=
            mkState false None out (error_output execution_state) in
          match stderr with
          | Closed e => raised stdout stderr e execution_state
          | Text err => mkState true None out err
          end
      end
  end.

Definition timed_out_message (timeout : pyint) : string :=
  "Code execution timed out after " +:+ py_str timeout +:+ " seconds".

(** The truth test [if execution_state["exception"]:] on the stored
    value: [None] is false, an exception object is as true as [bool(e)],
    which may raise. *)
Definition exception_truthy (stored : option exc) : raising bool :=
  match stored with
  | Some e => exc_bool e
  | None => Gives false
  end.

(** The statements of the [try] of [execute_python_code] after
    [thread.join]. [handled] is the exception the calling thread is
    handling when it calls the engine, if any. *)
Definition classify_try (timeout : pyint) (handled : option exc)
    (run : thread_run) : raising result :=
  let result := mkResult false "" ENone (NInt 0) in
  match run with
  | SpawnFailed e => Throws e
  | StillAlive => Gives (set_error (EStr (timed_out_message timeout)) result)
  | Finished stdout stderr o =>
      let execution_state := execute_code stdout stderr o in
      if completed execution_state then
        result <-
          (truth <- exception_truthy (exception execution_state) ;;
           if truth : bool then
             match exception execution_state with
             | Some e =>
                 if exc_is_SyntaxError e then
                   message <- exc_str e ;;
                   Gives (set_error (EStr ("Syntax Error: " +:+ message)) result)
                 else
                   message <- exc_str e ;;
                   Gives (set_error
                            (EDetails (exc_type_name e) message
                               (format_exc (exc_traceback <$> handled)))
                            result)
             | None => Gives result
             end
           else if negb (String.eqb (error_output execution_state) "")
           then Gives (set_error (EStr (error_output execution_state)) result)
           else Gives (set_success true result)) ;;
        Gives (set_output (state_output execution_state) result)
      else
        Gives (set_error (EStr "Execution completed with unknown state") result)
  end.

(** [execute_python_code] between [thread.join] and the final time stamp:
    the [try], and the final [except Exception as e], which finds the
    result as it was created. *)
Definition classify (timeout : pyint) (handled : option exc)
    (run : thread_run) : result :=
  let result := mkResult false "" ENone (NInt 0) in
  match classify_try timeout handled run with
  | Gives result => result
  | Throws e =>
      set_error (EDetails (plain_type_name e) (plain_str e)
                          (format_exc (Some (plain_traceback e))))
                result
  end.

Section WithEnvironment.

(** The environment: a world [W] that running a thread may change, the
    observation of a thread started on [code] and joined with
    [timeout], and the clock [time.time()]. *)
Context {W : Type}.
Variable run_thread : string -> pyint -> W -> thread_run * W.
Variable time_time : W -> float.

(** The serving state: the world and, as a ghost, the engine calls made
    so far, oldest first. *)
Record st : Type := mkSt {
  world : W;
  calls : list (string * pyint)
}.

Definition execute_python_code (code : string) (timeout : pyint)
    (handled : option exc) (s : st) : result * st :=
  let start_time := time_time (world s) in
  let '(run, w) := run_thread code timeout (world s) in
  let result := classify timeout handled run in
  (set_execution_time (NFloat (PrimFloat.sub (time_time w) start_time)) result,
   mkSt w (calls s ++ [(code, timeout)])).

End WithEnvironment.

End Engine.

(** ** Request adapter *)

(** The body handed to [jsonify]. *)
Inductive body : Type :=
  | Failure (msg : string)
      (* {"success": False, "error": msg} *)
  | Crash (prefix : string) (e : fault)
      (* {"success": False, "error": prefix + str(e)} *)
  | Rows (results : list (json * result))
      (* {"data": results} *)
  | Single (r : result).

(** A Flask response: body and HTTP status (200 when the view returns the
    body alone). *)
Definition response : Type := body * Z.

Module Adapter.

(** The result pre-built for a row whose code is not a string. *)
Definition code_not_string : result :=
  mkResult false "" (EStr "Code must be a string") (NInt 0).

Definition bad_row : response :=
  (Failure "Each row must be an array with at least [row_index, code]", 400).

Definition bad_timeout : response :=
  (Failure "'timeout' must be an integer between 1 and 300 seconds", 400).

Section WithEnvironment.

Context {W : Type}.
Variable run_thread : string -> pyint -> W -> thread_run * W.
Variable time_time : W -> float.

Abbreviation st := (@Engine.st W).
Abbreviation execute_python_code :=
  (Engine.execute_python_code run_thread time_time).

(** The [for row in rows] loop of [handle_snowflake_format], with the
    list [results] built so far. *)
Fixpoint snowflake_rows (rows : list json) (results : list (json * result))
    (s : st) : response * st :=
  let timeout := PInt 600 in
  match rows with
  | [] => ((Rows results, 200), s)
  | row :: rows =>
      match row with
      | JList (row_index :: code :: _) =>
          match code with
          | JStr code =>
              let '(result, s) := execute_python_code code timeout None s in
              snowflake_rows rows (results ++ [(row_index, result)]) s
          | _ =>
              snowflake_rows rows (results ++ [(row_index, code_not_string)]) s
          end
      | _ => (bad_row, s)
      end
  end.

Definition handle_snowflake_format (data : json) (s : st) : response * st :=
  match py_get "data" (JList []) data with
  | inl e => ((Crash "Error processing Snowflake format: " e, 500), s)
  | inr rows =>
      match rows with
      | JList rows => snowflake_rows rows [] s
      | _ => ((Failure "'data' must be an array", 400), s)
      end
  end.

Definition handle_legacy_format (data : json) (s : st) : response * st :=
  let crash e := ((Crash "Error processing legacy format: " e, 500), s) in
  match py_getitem "code" data with
  | inl e => crash e
  | inr code =>
      match py_get "timeout" (JInt 30) data with
      | inl e => crash e
      | inr timeout =>
          match code with
          | JStr code =>
              match as_int timeout with
              | None => (bad_timeout, s)
              | Some timeout =>
                  if (int_value timeout <=? 0) || (300 <? int_value timeout)
                  then (bad_timeout, s)
                  else
                    let '(result, s) :=
                      execute_python_code code timeout None s in
                    ((Single result, 200), s)
              end
          | _ => ((Failure "'code' parameter must be a string", 400), s)
          end
      end
  end.

(** The view of [/execute], from the decoded body on. *)
Definition execute_code (data : json) (s : st) : response * st :=
  let crash e := ((Crash "Internal server error: " e, 500), s) in
  if negb (truthy data) then ((Failure "Missing request body", 400), s)
  else
    match py_in "data" data with
    | inl e => crash e
    | inr true => handle_snowflake_format data s
    | inr false =>
        match py_in "code" data with
        | inl e => crash e
        | inr true => handle_legacy_format data s
        | inr false =>
            ((Failure "Invalid request format. Expected 'data' array (Snowflake format) or 'code' string (legacy format)", 400), s)
        end
    end.

End WithEnvironment.

End Adapter.

(** ** Vocabulary for the batch properties *)

(** The shape test of the loop: [isinstance(row, list) and len(row) >= 2]. *)
Definition well_shaped (row : json) : bool :=
  match row with
  | JList (_ :: _ :: _) => true
  | _ => false
  end.

(** The code of a well-shaped row whose code position holds a string. *)
Definition row_code (row : json) : option string :=
  match row with
  | JList (_ :: JStr code :: _) => Some code
  | _ => None
  end.

(** The engine calls a run of the loop over well-shaped [rows] makes. *)
Definition executed (rows : list json) : list (string * pyint) :=
  omap (fun row => (fun code => (code, PInt 600)) <$> row_code row) rows.

(** A row cut down to its first two positions. *)
Definition strip (row : json) : json :=
  match row with
  | JList (row_index :: code :: _) => JList [row_index; code]
  | _ => row
  end.

Section RowAnswer.

Context {W : Type}.
Variable run_thread : string -> pyint -> W -> thread_run * W.
Variable time_time : W -> float.

(** The entry of the response that answers [row]: the row's index with
    the pre-built error when the code is not a string, and with the
    engine's result for the code, from some serving state, when it is. *)
Definition row_answer (row : json) (a : json * result) : Prop :=
  match row with
  | JList (row_index :: JStr code :: _) =>
      a.1 = row_index /\
      exists s : @Engine.st W,
        a.2 = (Engine.execute_python_code run_thread time_time
                 code (PInt 600) None s).1
  | JList (row_index :: _ :: _) =>
      a.1 = row_index /\ a.2 = Adapter.code_not_string
  | _ => False
  end.

End RowAnswer.

(** ** A small concrete environment

    The world is the reading of the clock. Some programs are given the
    run they have under CPython; any other program is taken to finish at
    once without output. *)
Module Demo.

Definition SystemExit : exc :=
  mkExc "SystemExit" (Gives "") false false (Gives true)
        ("Traceback (most recent call last):" +:+ LF +:+ "SystemExit" +:+ LF).

Definition ZeroDivisionError : exc :=
  mkExc "ZeroDivisionError" (Gives "division by zero") true false (Gives true)
        ("Traceback (most recent call last):" +:+ LF
         +:+ "ZeroDivisionError: division by zero" +:+ LF).

(** The [ValueError] a closed [StringIO] raises on [getvalue()]. *)
Definition closed_file : exc :=
  mkExc "ValueError" (Gives "I/O operation on closed file") true false
        (Gives true)
        ("Traceback (most recent call last):" +:+ LF
         +:+ "ValueError: I/O operation on closed file" +:+ LF).

(** What [str(e)] raises for the exception [Mute] of the program below. *)
Definition no_message : plain_exc :=
  mkPlain "ValueError" "no message"
          ("Traceback (most recent call last):" +:+ LF
           +:+ "ValueError: no message" +:+ LF).

Definition Mute : exc :=
  mkExc "Mute" (Throws no_message) true false (Gives true)
        ("Traceback (most recent call last):" +:+ LF +:+ "Mute: " +:+ LF).

(** A program that prints, then raises an exception whose [__str__]
    raises. *)
Definition mute_program : string :=
  "class Mute(Exception):" +:+ LF
  +:+ "    def __str__(self): raise ValueError('no message')" +:+ LF
  +:+ "print('x')" +:+ LF
  +:+ "raise Mute()".

Fixpoint float_of_pos (p : positive) : float :=
  match p with
  | xH => 1%float
  | xO p => PrimFloat.mul 2%float (float_of_pos p)
  | xI p => PrimFloat.add (PrimFloat.mul 2%float (float_of_pos p)) 1%float
  end.

(** The seconds [thread.join] waits for a positive [timeout]. *)
Definition seconds (timeout : pyint) : float :=
  match int_value timeout with
  | Zpos p => float_of_pos p
  | _ => 0%float
  end.

Definition run_thread (code : string) (timeout : pyint) (w : float)
  : thread_run * float :=
  if String.eqb code "print(1)" then
    (Finished (Text ("1" +:+ LF)) (Text "") Returned, PrimFloat.add w 0.125%float)
  else if String.eqb code "raise SystemExit" then
    (Finished (Text "") (Text "") (Raised SystemExit),
     PrimFloat.add w 0.125%float)
  else if String.eqb code "print(1/0)" then
    (Finished (Text "") (Text "") (Raised ZeroDivisionError),
     PrimFloat.add w 0.125%float)
  else if String.eqb code "import sys; sys.stderr.write('warn')" then
    (Finished (Text "") (Text "warn") Returned, PrimFloat.add w 0.125%float)
  else if String.eqb code
            "import sys; sys.stderr.write('warn'); sys.stdout.close()" then
    (Finished (Closed closed_file) (Text "warn") Returned,
     PrimFloat.add w 0.125%float)
  else if String.eqb code "import sys; sys.stdout.close()" then
    (Finished (Closed closed_file) (Text "") Returned,
     PrimFloat.add w 0.125%float)
  else if String.eqb code mute_program then
    (Finished (Text ("x" +:+ LF)) (Text "") (Raised Mute),
     PrimFloat.add w 0.125%float)
  else if String.eqb code "while True: pass" then
    (StillAlive, PrimFloat.add w (seconds timeout))
  else
    (Finished (Text "") (Text "") Returned, w).

Definition time_time (w : float) : float := w.

Definition s0 : @Engine.st float := Engine.mkSt 0%float [].

Definition execute_python_code := Engine.execute_python_code run_thread time_time.
Definition handle_snowflake_format := Adapter.handle_snowflake_format run_thread time_time.
Definition handle_legacy_format := Adapter.handle_legacy_format run_thread time_time.
Definition execute_code := Adapter.execute_code run_thread time_time.

(** Request bodies. *)






(* {"data": [[0, "print(1)"]], "code": "print(1/0)"} *)
Definition both_fields_request : gmap string json :=
  <[ "code" := JStr "print(1/0)" ]>
    {[ "data" := JList [JList [JInt 0; JStr "print(1)"]] ]}.

End Demo.


(** ** A host that cannot start another thread

    [thread.start()] raises [RuntimeError] for every program. *)
Module Exhausted.

Definition RuntimeError : plain_exc :=
  mkPlain "RuntimeError" "can't start new thread"
        ("Traceback (most recent call last):" +:+ LF
         +:+ "RuntimeError: can't start new thread" +:+ LF).

Definition run_thread (code : string) (timeout : pyint) (w : float)
  : thread_run * float :=
  (SpawnFailed RuntimeError, w).

Definition execute_python_code :=
  Engine.execute_python_code run_thread Demo.time_time.

End Exhausted.

(** Further request bodies. *)
Module Bodies.

(* {"code": 42, "timeout": "soon"} *)
Definition bad_code_bad_timeout : gmap string json :=
  <[ "timeout" := JStr "soon" ]> {[ "code" := JInt 42 ]}.

(* {"timeout": 5} *)
Definition timeout_only : gmap string json := {[ "timeout" := JInt 5 ]}.

(* {"data": "print(1)", "code": "print(1)"} *)
Definition data_is_string : gmap string json :=
  <[ "code" := JStr "print(1)" ]> {[ "data" := JStr "print(1)" ]}.


End Bodies.

(** * Properties of the engine *)

(** Every way a run can be classified: the buffers, the outcome of the
    program and what the engine reads off the exception. *)
Ltac classify_cases run :=
  destruct run as [[?out|?ce] [?err|?ce] [|?e] | | ?e0];
  unfold Engine.classify, Engine.classify_try, Engine.execute_code,
    Engine.raised, Engine.handler, Engine.exception_truthy, bind; cbn;
  repeat match goal with
  | |- context [exc_is_Exception ?e] => destruct (exc_is_Exception e) eqn:?; cbn
  | |- context [exc_bool ?e] => destruct (exc_bool e) as [[|]|?] eqn:?; cbn
  | |- context [exc_is_SyntaxError ?e] =>
      destruct (exc_is_SyntaxError e) eqn:?; cbn
  | |- context [exc_str ?e] => destruct (exc_str e) eqn:?; cbn
  | |- context [String.eqb ?x ""] =>
      destruct (String.eqb_spec x "") as [->|?]; cbn
  end.

Section EngineFacts.

Context {W : Type}.
Variable run_thread : string -> pyint -> W -> thread_run * W.
Variable time_time : W -> float.

Abbreviation engine := (Engine.execute_python_code run_thread time_time).

(** The engine's result is the classification of the observed run, with
    the elapsed time filled in; the call is logged. *)
Lemma engine_result code timeout handled (s : Engine.st) :
  engine code timeout handled s =
    let run := run_thread code timeout (Engine.world s) in
    (set_execution_time
       (NFloat (PrimFloat.sub (time_time run.2) (time_time (Engine.world s))))
       (Engine.classify timeout handled run.1),
     Engine.mkSt run.2 (Engine.calls s ++ [(code, timeout)])).
Proof.
  unfold Engine.execute_python_code.
  destruct (run_thread code timeout (Engine.world s)); reflexivity.
Qed.

Lemma engine_calls code timeout handled (s : Engine.st) :
  Engine.calls (engine code timeout handled s).2 =
    Engine.calls s ++ [(code, timeout)].
Proof. rewrite engine_result. reflexivity. Qed.

Lemma string_eqb_empty (x : string) : String.eqb x "" = false <-> x <> "".
Proof. apply String.eqb_neq. Qed.

(** The classification never reports success together with an error,
    and reports no error only when both buffers could be read and the
    standard-error buffer was empty. *)
Lemma classify_invariant timeout handled run :
  let r := Engine.classify timeout handled run in
  (success r = true -> error r = ENone) /\
  (error r = ENone ->
   exists stdout o, run = Finished (Text stdout) (Text "") o).
Proof.
  classify_cases run; split; (discriminate || eauto).
Qed.

(** C2, as the code has it. For every call to the engine: a result with
    [success] true has no error; a result with no error means the
    captured standard-error buffer was empty; and a program that ends
    without raising and leaves both capture buffers readable, having
    written to standard error, gets [success] false and the captured
    text as its error. *)
Theorem success_error_stderr_invariant code timeout handled (s : Engine.st) :
  let run := (run_thread code timeout (Engine.world s)).1 in
  let r := (engine code timeout handled s).1 in
  (success r = true -> error r = ENone) /\
  (error r = ENone ->
   exists stdout o, run = Finished (Text stdout) (Text "") o) /\
  (forall stdout stderr,
      run = Finished (Text stdout) (Text stderr) Returned -> stderr <> "" ->
      success r = false /\ error r = EStr stderr).
Proof.
  rewrite engine_result; cbn.
  pose proof (classify_invariant timeout handled
                (run_thread code timeout (Engine.world s)).1) as [H1 H2].
  split; [exact H1|]. split; [exact H2|].
  intros stdout stderr Hrun Hne. rewrite Hrun.
  unfold Engine.classify, Engine.classify_try. cbn.
  apply string_eqb_empty in Hne. rewrite Hne. split; reflexivity.
Qed.

(** C3, as the code has it. When the program raises, before the deadline
    and with both capture buffers readable, an exception of the
    [Exception] hierarchy whose truth test gives true and whose [str()]
    gives a message, [success] is false and the output is the captured
    standard output; a [SyntaxError] gives the string error "Syntax
    Error: " followed by the message, any other exception the structured
    error with the type name and the message. *)
Theorem caught_exception_result code timeout handled (s : Engine.st)
    stdout stderr e message :
  (run_thread code timeout (Engine.world s)).1
    = Finished (Text stdout) (Text stderr) (Raised e) ->
  exc_is_Exception e = true ->
  exc_bool e = Gives true ->
  exc_str e = Gives message ->
  let r := (engine code timeout handled s).1 in
  success r = false /\ output r = stdout /\
  (exc_is_SyntaxError e = true ->
     error r = EStr ("Syntax Error: " +:+ message)) /\
  (exc_is_SyntaxError e = false ->
     exists traceback,
       error r = EDetails (exc_type_name e) message traceback).
Proof.
  intros Hrun Hexc Hbool Hstr. rewrite engine_result; cbn. rewrite Hrun.
  unfold Engine.classify, Engine.classify_try, Engine.execute_code,
    Engine.raised, Engine.handler, Engine.exception_truthy, bind; cbn.
  rewrite Hexc; cbn. rewrite Hbool.
  destruct (exc_is_SyntaxError e); rewrite Hstr; cbn; repeat split;
    try discriminate; eauto.
Qed.

(** The "traceback" of the structured error is whatever the serving
    thread is handling when it calls the engine, not the trace of the
    exception the program raised. *)
Lemma structured_error_traceback code timeout handled (s : Engine.st)
    stdout stderr e message :
  (run_thread code timeout (Engine.world s)).1
    = Finished (Text stdout) (Text stderr) (Raised e) ->
  exc_is_Exception e = true ->
  exc_bool e = Gives true ->
  exc_str e = Gives message ->
  exc_is_SyntaxError e = false ->
  error (engine code timeout handled s).1
    = EDetails (exc_type_name e) message
               (format_exc (exc_traceback <$> handled)).
Proof.
  intros Hrun Hexc Hbool Hstr Hsyn. rewrite engine_result; cbn. rewrite Hrun.
  unfold Engine.classify, Engine.classify_try, Engine.execute_code,
    Engine.raised, Engine.handler, Engine.exception_truthy, bind; cbn.
  rewrite Hexc; cbn. rewrite Hbool, Hsyn, Hstr. reflexivity.
Qed.

(** C4, as the code has it. When the thread is still alive at the
    deadline, the result has [success] false, empty output, the error
    "Code execution timed out after <timeout> seconds", and the elapsed
    time between the two readings of the clock. *)
Theorem timeout_result code timeout handled (s : Engine.st) :
  (run_thread code timeout (Engine.world s)).1 = StillAlive ->
  let r := (engine code timeout handled s).1 in
  let s' := (engine code timeout handled s).2 in
  success r = false /\ output r = "" /\
  error r = EStr ("Code execution timed out after " +:+ py_str timeout
                    +:+ " seconds") /\
  execution_time r =
    NFloat (PrimFloat.sub (time_time (Engine.world s'))
                          (time_time (Engine.world s))).
Proof.
  intros Hrun. rewrite engine_result; cbn. rewrite Hrun.
  repeat split.
Qed.

(** C10. When the program raises, before the deadline, an exception
    outside the [Exception] hierarchy, the worker records no completion
    and the result has [success] false and the error "Execution
    completed with unknown state". *)
Theorem uncaught_exception_unknown_state code timeout handled
    (s : Engine.st) stdout stderr e :
  (run_thread code timeout (Engine.world s)).1
    = Finished stdout stderr (Raised e) ->
  exc_is_Exception e = false ->
  let r := (engine code timeout handled s).1 in
  completed (Engine.execute_code stdout stderr (Raised e)) = false /\
  success r = false /\
  error r = EStr "Execution completed with unknown state".
Proof.
  intros Hrun Hexc. rewrite engine_result; cbn. rewrite Hrun.
  unfold Engine.classify, Engine.classify_try, Engine.execute_code,
    Engine.raised; cbn.
  rewrite Hexc; cbn. repeat split.
Qed.

End EngineFacts.

(** C2 as stated fails: the program returns without raising after
    writing "warn" to standard error, but it has closed the standard
    output buffer, and the error is not the captured text. *)
Lemma closed_stdout_hides_stderr :
  let code := "import sys; sys.stderr.write('warn'); sys.stdout.close()" in
  let r := (Demo.execute_python_code code (PInt 5) None Demo.s0).1 in
  (Demo.run_thread code (PInt 5) (Engine.world Demo.s0)).1
    = Finished (Closed Demo.closed_file) (Text "warn") Returned /\
  success r = false /\
  error r = EStr "Execution completed with unknown state" /\
  error r <> EStr "warn".
Proof.
  split; [reflexivity|]. split; [reflexivity|]. split; [reflexivity|].
  vm_compute. discriminate.
Qed.

(** C2, as the code has it, at a program that only writes to standard
    error. *)
Lemma stderr_failure_witness :
  let r := (Demo.execute_python_code "import sys; sys.stderr.write('warn')"
              (PInt 5) None Demo.s0).1 in
  success r = false /\ error r = EStr "warn".
Proof.
  apply (proj2 (proj2 (success_error_stderr_invariant
                         Demo.run_thread Demo.time_time
                         "import sys; sys.stderr.write('warn')"
                         (PInt 5) None Demo.s0)) "" "warn").
  - reflexivity.
  - discriminate.
Defined.

(** C3 as stated fails: a program that raises [SystemExit], which is no
    syntax error, gets a string error and not a structured one. *)
Lemma system_exit_not_structured :
  let r := (Demo.execute_python_code "raise SystemExit" (PInt 5) None Demo.s0).1 in
  (Demo.run_thread "raise SystemExit" (PInt 5) (Engine.world Demo.s0)).1
    = Finished (Text "") (Text "") (Raised Demo.SystemExit) /\
  exc_is_SyntaxError Demo.SystemExit = false /\
  error r = EStr "Execution completed with unknown state" /\
  ~ (exists type message traceback, error r = EDetails type message traceback).
Proof.
  repeat split. intros (t & m & tb & H). vm_compute in H. discriminate.
Qed.

(** C3, as the code has it, at a division by zero. *)
Lemma caught_exception_witness :
  let r := (Demo.execute_python_code "print(1/0)" (PInt 5) None Demo.s0).1 in
  success r = false /\ output r = "" /\
  (false = true -> error r = EStr ("Syntax Error: " +:+ "division by zero")) /\
  (false = false ->
     exists traceback,
       error r = EDetails "ZeroDivisionError" "division by zero" traceback).
Proof.
  apply (caught_exception_result Demo.run_thread Demo.time_time
           "print(1/0)" (PInt 5) None Demo.s0 "" "" Demo.ZeroDivisionError
           "division by zero");
    reflexivity.
Defined.

(** The trace the adapter's callers receive for that division by zero:
    the adapter calls the engine while handling no exception. *)
Example zero_division_traceback :
  error (Demo.execute_python_code "print(1/0)" (PInt 5) None Demo.s0).1
    = EDetails "ZeroDivisionError" "division by zero" ("NoneType: None" +:+ LF)
  /\ exc_traceback Demo.ZeroDivisionError <> "NoneType: None" +:+ LF.
Proof. split; [reflexivity | discriminate]. Qed.

(** A caught exception whose object is falsy (a class that defines
    [__len__] as 0, say) passes for no exception: with an empty
    standard-error buffer the run is classified a success. *)
Example falsy_exception_success :
  let e := mkExc "Quiet" (Gives "") true false (Gives false) "" in
  let r := Engine.classify (PInt 5) None
             (Finished (Text "") (Text "") (Raised e)) in
  success r = true /\ error r = ENone.
Proof. split; reflexivity. Qed.

(** A caught exception whose [__str__] raises is answered by the final
    handler of the engine: the error is that of the second exception,
    with its own trace, and what the program had printed is not in the
    output. *)
Example raising_str_answer :
  let r := (Demo.execute_python_code Demo.mute_program (PInt 5) None Demo.s0).1 in
  success r = false /\ output r = "" /\
  error r = EDetails "ValueError" "no message"
                     (plain_traceback Demo.no_message).
Proof. repeat split. Qed.

(** C4 as stated fails: the error of a timed-out call is not the string
    "execution timed out after 5 seconds". *)
Lemma timeout_message_differs :
  let r := (Demo.execute_python_code "while True: pass" (PInt 5) None Demo.s0).1 in
  (Demo.run_thread "while True: pass" (PInt 5) (Engine.world Demo.s0)).1
    = StillAlive /\
  error r = EStr "Code execution timed out after 5 seconds" /\
  error r <> EStr "execution timed out after 5 seconds".
Proof. repeat split. discriminate. Qed.

(** C4, as the code has it, at an endless loop under a timeout of 5
    seconds. *)
Lemma timeout_result_witness :
  let r := (Demo.execute_python_code "while True: pass" (PInt 5) None Demo.s0).1 in
  success r = false /\ output r = "" /\
  error r = EStr "Code execution timed out after 5 seconds" /\
  execution_time r = NFloat 5%float.
Proof.
  apply (timeout_result Demo.run_thread Demo.time_time
           "while True: pass" (PInt 5) None Demo.s0).
  reflexivity.
Defined.

(** C10 at a program that raises [SystemExit]. *)
Lemma uncaught_exception_witness :
  let r := (Demo.execute_python_code "raise SystemExit" (PInt 5) None Demo.s0).1 in
  completed (Engine.execute_code (Text "") (Text "")
               (Raised Demo.SystemExit)) = false /\
  success r = false /\
  error r = EStr "Execution completed with unknown state".
Proof.
  apply (uncaught_exception_unknown_state Demo.run_thread Demo.time_time
           "raise SystemExit" (PInt 5) None Demo.s0 (Text "") (Text "")
           Demo.SystemExit);
    reflexivity.
Defined.

(** * Properties of the adapter *)

Section AdapterFacts.

Context {W : Type}.
Variable run_thread : string -> pyint -> W -> thread_run * W.
Variable time_time : W -> float.

Abbreviation execute_python_code :=
  (Engine.execute_python_code run_thread time_time).
Abbreviation snowflake_rows := (Adapter.snowflake_rows run_thread time_time).
Abbreviation handle_snowflake_format :=
  (Adapter.handle_snowflake_format run_thread time_time).
Abbreviation handle_legacy_format :=
  (Adapter.handle_legacy_format run_thread time_time).
Abbreviation execute_code := (Adapter.execute_code run_thread time_time).
Abbreviation answers_row := (row_answer run_thread time_time).

Implicit Types (s : @Engine.st W) (m : gmap string json) (rows : list json).

(** *** Dispatch *)

Lemma lookup_truthy m k v : m !! k = Some v -> truthy (JObj m) = true.
Proof.
  intros Hk. cbn. apply negb_true_iff, Nat.eqb_neq. intros Hsize.
  apply map_size_empty_iff in Hsize. subst m.
  rewrite lookup_empty in Hk. discriminate.
Qed.

Lemma execute_code_batch m d s :
  m !! "data" = Some d ->
  execute_code (JObj m) s = handle_snowflake_format (JObj m) s.
Proof.
  intros Hd. unfold Adapter.execute_code.
  rewrite (lookup_truthy _ _ _ Hd). cbn. rewrite Hd. reflexivity.
Qed.

Lemma execute_code_single m c s :
  m !! "data" = None -> m !! "code" = Some c ->
  execute_code (JObj m) s = handle_legacy_format (JObj m) s.
Proof.
  intros Hd Hc. unfold Adapter.execute_code.
  rewrite (lookup_truthy _ _ _ Hc). cbn. rewrite Hd, Hc. reflexivity.
Qed.

Lemma handle_snowflake_format_data m m' s :
  m !! "data" = m' !! "data" ->
  handle_snowflake_format (JObj m) s = handle_snowflake_format (JObj m') s.
Proof.
  intros Heq. unfold Adapter.handle_snowflake_format. cbn.
  rewrite Heq. reflexivity.
Qed.

Lemma handle_snowflake_format_rows m rows s :
  m !! "data" = Some (JList rows) ->
  handle_snowflake_format (JObj m) s = snowflake_rows rows [] s.
Proof.
  intros Hd. unfold Adapter.handle_snowflake_format. cbn.
  rewrite Hd. reflexivity.
Qed.

(** *** The loop over the rows *)

Lemma executed_cons_code idx code tl rows :
  executed (JList (idx :: JStr code :: tl) :: rows)
    = (code, PInt 600) :: executed rows.
Proof. reflexivity. Qed.

Lemma executed_timeout rows :
  Forall (fun c : string * pyint => c.2 = PInt 600) (executed rows).
Proof.
  induction rows as [|row rows IH]; [constructor|].
  unfold executed in *. cbn.
  destruct (row_code row); cbn; [constructor|]; done.
Qed.

Lemma snowflake_rows_other idx code tl rows results s :
  row_code (JList (idx :: code :: tl)) = None ->
  snowflake_rows (JList (idx :: code :: tl) :: rows) results s
    = snowflake_rows rows (results ++ [(idx, Adapter.code_not_string)]) s.
Proof. destruct code; intros Hnone; try reflexivity. discriminate Hnone. Qed.

Lemma answers_row_other idx code tl :
  row_code (JList (idx :: code :: tl)) = None ->
  answers_row (JList (idx :: code :: tl)) (idx, Adapter.code_not_string).
Proof.
  destruct code; intros Hnone; try (split; reflexivity). discriminate Hnone.
Qed.

(** A run of the loop over a well-shaped prefix leaves the loop at the
    rest of the rows, having answered each row of the prefix in order
    and called the engine on the string codes, in order. *)
Lemma snowflake_rows_prefix pre rest results s :
  Forall (fun row => well_shaped row = true) pre ->
  exists answers s',
    snowflake_rows (pre ++ rest) results s
      = snowflake_rows rest (results ++ answers) s' /\
    Forall2 answers_row pre answers /\
    Engine.calls s' = Engine.calls s ++ executed pre.
Proof.
  intros Hshape. revert results s.
  induction Hshape as [|row pre Hrow _ IH]; intros results s.
  { exists [], s. rewrite !app_nil_r. repeat split. constructor. }
  destruct row as [| | | | |[|idx [|code tl]]|]; try discriminate Hrow.
  destruct (row_code (JList (idx :: code :: tl))) as [c|] eqn:Hcode.
  - destruct code; try discriminate Hcode.
    injection Hcode as ->.
    cbn [Adapter.snowflake_rows app].
    destruct (execute_python_code c (PInt 600) None s) as [r s1] eqn:Hcall.
    destruct (IH (results ++ [(idx, r)]) s1)
      as (answers & s' & Hrun & Hans & Hcalls).
    exists ((idx, r) :: answers), s'.
    rewrite <- app_assoc in Hrun. repeat split; [exact Hrun| |].
    + constructor; [|assumption]. split; [reflexivity|].
      exists s. rewrite Hcall. reflexivity.
    + rewrite Hcalls, executed_cons_code.
      pose proof (engine_calls run_thread time_time c (PInt 600) None s)
        as Hlog.
      rewrite Hcall in Hlog. cbn in Hlog. rewrite Hlog, <- app_assoc.
      reflexivity.
  - cbn [app]. rewrite snowflake_rows_other by exact Hcode.
    destruct (IH (results ++ [(idx, Adapter.code_not_string)]) s)
      as (answers & s' & Hrun & Hans & Hcalls).
    exists ((idx, Adapter.code_not_string) :: answers), s'.
    rewrite <- app_assoc in Hrun. repeat split; [exact Hrun| |].
    + constructor; [|assumption]. apply answers_row_other, Hcode.
    + unfold executed in *. cbn [omap list_omap]. rewrite Hcode. exact Hcalls.
Qed.

Lemma snowflake_rows_malformed bad post results s :
  well_shaped bad = false ->
  snowflake_rows (bad :: post) results s = (Adapter.bad_row, s).
Proof.
  intros Hbad.
  destruct bad as [| | | | |[|idx [|code tl]]|];
    try discriminate Hbad; reflexivity.
Qed.


(** Every run of the loop only adds calls made with 600 seconds. *)
Lemma snowflake_rows_calls rows results s :
  exists new,
    Engine.calls (snowflake_rows rows results s).2 = Engine.calls s ++ new /\
    Forall (fun c : string * pyint => c.2 = PInt 600) new.
Proof.
  revert results s. induction rows as [|row rows IH]; intros results s.
  - exists []. rewrite app_nil_r. split; [reflexivity|constructor].
  - destruct (well_shaped row) eqn:Hrow.
    + destruct (snowflake_rows_prefix [row] rows results s)
        as (answers & s' & Hrun & _ & Hcalls).
      { repeat constructor. exact Hrow. }
      cbn [app] in Hrun. rewrite Hrun.
      destruct (IH (results ++ answers) s') as (new & Hnew & Hall).
      exists (executed [row] ++ new). split.
      * rewrite Hnew, Hcalls, app_assoc. reflexivity.
      * apply Forall_app. split; [apply executed_timeout|exact Hall].
    + rewrite snowflake_rows_malformed by exact Hrow.
      exists []. rewrite app_nil_r. split; [reflexivity|constructor].
Qed.

Lemma snowflake_rows_strip rows results s :
  snowflake_rows (strip <$> rows) results s = snowflake_rows rows results s.
Proof.
  revert results s. induction rows as [|row rows IH]; intros results s;
    [reflexivity|].
  destruct row as [| | | | |[|idx [|code tl]]|]; try reflexivity.
  destruct code; cbn; try apply IH.
  destruct (execute_python_code _ _ _ _). apply IH.
Qed.


(** *** The claims *)





(** C8. Every engine call a batch request makes is made with the timeout
    600; a "timeout" field beside "data" and any positions of a row
    after its first two change neither the response nor the calls. *)
Theorem batch_timeout_fixed data s :
  (exists new,
      Engine.calls (handle_snowflake_format data s).2 = Engine.calls s ++ new /\
      Forall (fun c : string * pyint => c.2 = PInt 600) new) /\
  (forall m v,
      handle_snowflake_format (JObj (<["timeout" := v]> m)) s
        = handle_snowflake_format (JObj m) s) /\
  (forall m rows,
      handle_snowflake_format (JObj (<["data" := JList (strip <$> rows)]> m)) s
        = handle_snowflake_format (JObj (<["data" := JList rows]> m)) s).
Proof.
  split; [|split].
  - unfold Adapter.handle_snowflake_format.
    destruct (py_get "data" (JList []) data) as [e|rows]; cbn.
    + exists []. rewrite app_nil_r. split; [reflexivity|constructor].
    + destruct rows; try apply snowflake_rows_calls;
        exists []; rewrite app_nil_r; (split; [reflexivity|constructor]).
  - intros m v. apply handle_snowflake_format_data.
    apply lookup_insert_ne. discriminate.
  - intros m rows.
    rewrite !(handle_snowflake_format_rows _ _ _ (lookup_insert_eq _ _ _)).
    apply snowflake_rows_strip.
Qed.

(** C9. A body with both a "data" and a "code" field is handled in batch
    mode: the response is that of the batch handler on the "data" field,
    and it is the same whatever the "code" field holds, or without it. *)
Theorem data_takes_precedence m d c s :
  m !! "data" = Some d ->
  m !! "code" = Some c ->
  execute_code (JObj m) s = handle_snowflake_format (JObj m) s /\
  execute_code (JObj m) s
    = match d with
      | JList rows => snowflake_rows rows [] s
      | _ => ((Failure "'data' must be an array", 400), s)
      end /\
  (forall c', execute_code (JObj (<["code" := c']> m)) s
              = execute_code (JObj m) s) /\
  execute_code (JObj (delete "code" m)) s = execute_code (JObj m) s.
Proof.
  intros Hd Hc. rewrite (execute_code_batch _ _ _ Hd).
  split; [reflexivity|]. split; [|split].
  - unfold Adapter.handle_snowflake_format. cbn. rewrite Hd. reflexivity.
  - intros c'.
    assert (Hd' : <["code" := c']> m !! "data" = Some d)
      by (rewrite lookup_insert_ne; [exact Hd|discriminate]).
    rewrite (execute_code_batch _ _ _ Hd').
    apply handle_snowflake_format_data. congruence.
  - assert (Hd' : delete "code" m !! "data" = Some d)
      by (rewrite lookup_delete_ne; [exact Hd|discriminate]).
    rewrite (execute_code_batch _ _ _ Hd').
    apply handle_snowflake_format_data. congruence.
Qed.

End AdapterFacts.








(** C9 at a body with both fields. *)
Lemma data_takes_precedence_witness :
  Demo.execute_code (JObj Demo.both_fields_request) Demo.s0
    = Demo.handle_snowflake_format (JObj Demo.both_fields_request) Demo.s0 /\
  Demo.execute_code (JObj Demo.both_fields_request) Demo.s0
    = Adapter.snowflake_rows Demo.run_thread Demo.time_time
        [JList [JInt 0; JStr "print(1)"]] [] Demo.s0 /\
  (forall c', Demo.execute_code (JObj (<["code" := c']> Demo.both_fields_request))
                Demo.s0
              = Demo.execute_code (JObj Demo.both_fields_request) Demo.s0) /\
  Demo.execute_code (JObj (delete "code" Demo.both_fields_request)) Demo.s0
    = Demo.execute_code (JObj Demo.both_fields_request) Demo.s0.
Proof.
  apply (data_takes_precedence Demo.run_thread Demo.time_time
           Demo.both_fields_request
           (JList [JList [JInt 0; JStr "print(1)"]]) (JStr "print(1/0)")
           Demo.s0); reflexivity.
Defined.

(** * Further properties of the engine *)

Section EngineCases.

Context {W : Type}.
Variable run_thread : string -> pyint -> W -> thread_run * W.
Variable time_time : W -> float.

Abbreviation engine := (Engine.execute_python_code run_thread time_time).

(** The fields of the engine's result other than the time are those of
    the classification of the observed run. *)
Lemma engine_fields code timeout handled (s : Engine.st) :
  success (engine code timeout handled s).1
    = success (Engine.classify timeout handled
                 (run_thread code timeout (Engine.world s)).1) /\
  output (engine code timeout handled s).1
    = output (Engine.classify timeout handled
                (run_thread code timeout (Engine.world s)).1) /\
  error (engine code timeout handled s).1
    = error (Engine.classify timeout handled
               (run_thread code timeout (Engine.world s)).1).
Proof. rewrite engine_result. repeat split. Qed.

Lemma classify_success_iff_no_error timeout handled run :
  let r := Engine.classify timeout handled run in
  success r = true <-> error r = ENone.
Proof.
  classify_cases run; split; (discriminate || reflexivity).
Qed.

(** X1. A result of the engine has no error exactly when [success] is
    true: every failed call carries an error value. *)
Theorem success_iff_no_error code timeout handled (s : Engine.st) :
  let r := (engine code timeout handled s).1 in
  success r = true <-> error r = ENone.
Proof.
  cbv zeta.
  destruct (engine_fields code timeout handled s) as (-> & _ & ->).
  apply classify_success_iff_no_error.
Qed.

Lemma classify_success timeout handled run :
  success (Engine.classify timeout handled run) = true <->
  exists stdout o,
    run = Finished (Text stdout) (Text "") o /\
    (o = Returned \/
     exists e, o = Raised e /\ exc_is_Exception e = true /\
               exc_bool e = Gives false).
Proof.
  classify_cases run; (split; [try discriminate; intros _; eauto 10 |]);
    try reflexivity;
    intros (? & ? & ? & [? | (? & ? & ? & ?)]); simplify_eq; congruence.
Qed.

(** X2. The engine reports success exactly when the thread ended before
    the deadline, both capture buffers could be read, the standard-error
    buffer was empty, and either the program returned, or it raised a
    caught exception whose truth test gives false. *)
Theorem success_characterised code timeout handled (s : Engine.st) :
  let run := (run_thread code timeout (Engine.world s)).1 in
  let r := (engine code timeout handled s).1 in
  success r = true <->
  exists stdout o,
    run = Finished (Text stdout) (Text "") o /\
    (o = Returned \/
     exists e, o = Raised e /\ exc_is_Exception e = true /\
               exc_bool e = Gives false).
Proof.
  cbv zeta.
  destruct (engine_fields code timeout handled s) as (-> & _ & _).
  apply classify_success.
Qed.

Lemma classify_structured timeout handled run :
  (exists type message traceback,
      error (Engine.classify timeout handled run)
        = EDetails type message traceback)
  <->
  ((exists e, run = SpawnFailed e) \/
   (exists stdout stderr e,
      run = Finished (Text stdout) (Text stderr) (Raised e) /\
      exc_is_Exception e = true /\
      ((exists e', exc_bool e = Throws e') \/
       (exc_bool e = Gives true /\
        ((exists e', exc_str e = Throws e') \/
         exc_is_SyntaxError e = false))))).
Proof.
  classify_cases run;
    (split;
     [ intros (? & ? & ? & ?); try discriminate; eauto 15
     | intros [(? & ?) | (? & ? & ? & ? & ? & [(? & ?) | (? & [(? & ?) | ?])])];
       simplify_eq; try congruence; eauto ]).
Qed.

(** X3. The error is the structured object exactly when starting or
    joining the thread raised an [Exception], or the program raised,
    before the deadline and with both capture buffers readable, a caught
    exception whose truth test raises, or gives true while its [str()]
    raises or it is no [SyntaxError]; in every other failure the error is
    a string. *)
Theorem structured_error_characterised code timeout handled (s : Engine.st) :
  let run := (run_thread code timeout (Engine.world s)).1 in
  let r := (engine code timeout handled s).1 in
  (exists type message traceback, error r = EDetails type message traceback)
  <->
  ((exists e, run = SpawnFailed e) \/
   (exists stdout stderr e,
      run = Finished (Text stdout) (Text stderr) (Raised e) /\
      exc_is_Exception e = true /\
      ((exists e', exc_bool e = Throws e') \/
       (exc_bool e = Gives true /\
        ((exists e', exc_str e = Throws e') \/
         exc_is_SyntaxError e = false))))).
Proof.
  cbv zeta.
  destruct (engine_fields code timeout handled s) as (_ & _ & ->).
  apply classify_structured.
Qed.

(** X4. When creating, starting or joining the thread raises an
    exception of the [Exception] hierarchy whose [str()] returns, the
    result has [success] false, empty output and the structured error of
    that exception, with the exception's own trace, whatever the calling
    thread is handling. *)
Theorem spawn_failure_result code timeout handled (s : Engine.st) e :
  (run_thread code timeout (Engine.world s)).1 = SpawnFailed e ->
  let r := (engine code timeout handled s).1 in
  success r = false /\ output r = "" /\
  error r = EDetails (plain_type_name e) (plain_str e) (plain_traceback e).
Proof.
  intros Hrun. cbv zeta.
  destruct (engine_fields code timeout handled s) as (-> & -> & ->).
  rewrite Hrun. repeat split.
Qed.

Lemma classify_output timeout handled run :
  output (Engine.classify timeout handled run) =
    match run with
    | Finished (Text stdout) (Text _) Returned => stdout
    | Finished (Text stdout) (Text _) (Raised e) =>
        if exc_is_Exception e then
          match exc_bool e with
          | Gives true =>
              match exc_str e with Gives _ => stdout | Throws _ => "" end
          | Gives false => stdout
          | Throws _ => ""
          end
        else ""
    | _ => ""
    end.
Proof. classify_cases run; reflexivity. Qed.

(** X5. The output of a result is the captured standard output when both
    capture buffers could be read and the program returned, or raised a
    caught exception whose truth test and, where it is asked, [str()]
    return. It is empty in every other case: a timeout, a thread that
    could not be run, a capture buffer that cannot be read, an exception
    outside the [Exception] hierarchy, a truth test or [str()] that
    raises; what the program had printed is then dropped. *)
Theorem output_characterised code timeout handled (s : Engine.st) :
  let run := (run_thread code timeout (Engine.world s)).1 in
  let r := (engine code timeout handled s).1 in
  output r =
    match run with
    | Finished (Text stdout) (Text _) Returned => stdout
    | Finished (Text stdout) (Text _) (Raised e) =>
        if exc_is_Exception e then
          match exc_bool e with
          | Gives true =>
              match exc_str e with Gives _ => stdout | Throws _ => "" end
          | Gives false => stdout
          | Throws _ => ""
          end
        else ""
    | _ => ""
    end.
Proof.
  cbv zeta.
  destruct (engine_fields code timeout handled s) as (_ & -> & _).
  apply classify_output.
Qed.

End EngineCases.

(** X4 on the host that cannot start a thread. *)
Lemma spawn_failure_witness :
  let r := (Exhausted.execute_python_code "print(1)" (PInt 5) None Demo.s0).1 in
  success r = false /\ output r = "" /\
  error r = EDetails "RuntimeError" "can't start new thread"
                     (plain_traceback Exhausted.RuntimeError).
Proof.
  apply (spawn_failure_result Exhausted.run_thread Demo.time_time
           "print(1)" (PInt 5) None Demo.s0 Exhausted.RuntimeError).
  reflexivity.
Defined.

(** * Further properties of the adapter *)

Section AdapterCases.

Context {W : Type}.
Variable run_thread : string -> pyint -> W -> thread_run * W.
Variable time_time : W -> float.

Abbreviation execute_python_code :=
  (Engine.execute_python_code run_thread time_time).
Abbreviation snowflake_rows := (Adapter.snowflake_rows run_thread time_time).
Abbreviation handle_snowflake_format :=
  (Adapter.handle_snowflake_format run_thread time_time).
Abbreviation handle_legacy_format :=
  (Adapter.handle_legacy_format run_thread time_time).
Abbreviation execute_code := (Adapter.execute_code run_thread time_time).

Implicit Types (s : @Engine.st W) (m : gmap string json) (rows : list json).

(** The timeouts the adapter hands to the engine. *)
Abbreviation adapter_timeout :=
  (fun c : string * pyint => c.2 = PInt 600 \/ 1 <= int_value c.2 <= 300).

(** *** The loop, one step at a time *)







(** *** The handlers *)

Lemma handle_snowflake_format_calls data s :
  exists new,
    Engine.calls (handle_snowflake_format data s).2 = Engine.calls s ++ new /\
    Forall adapter_timeout new.
Proof.
  assert (Hnone : exists new : list (string * pyint),
             Engine.calls s = Engine.calls s ++ new /\
             Forall adapter_timeout new).
  { exists []. rewrite app_nil_r. split; [reflexivity|constructor]. }
  unfold Adapter.handle_snowflake_format.
  destruct (py_get "data" (JList []) data) as [e|rows]; [exact Hnone|].
  destruct rows as [| | | | |rows|]; try exact Hnone.
  destruct (snowflake_rows_calls run_thread time_time rows [] s)
    as (new & Hnew & Hall).
  exists new. split; [exact Hnew|].
  eapply Forall_impl; [exact Hall|]. intros c Hc. left. exact Hc.
Qed.

(** The legacy handler on an object whose code is a string. *)
Lemma handle_legacy_format_string m code s :
  m !! "code" = Some (JStr code) ->
  handle_legacy_format (JObj m) s =
    match as_int (default (JInt 30) (m !! "timeout")) with
    | Some t =>
        if (int_value t <=? 0) || (300 <? int_value t)
        then (Adapter.bad_timeout, s)
        else ((Single (execute_python_code code t None s).1, 200),
              (execute_python_code code t None s).2)
    | None => (Adapter.bad_timeout, s)
    end.
Proof.
  intros Hc. unfold Adapter.handle_legacy_format. cbn. rewrite Hc.
  destruct (as_int _) as [t|]; [|reflexivity].
  destruct (_ || _); [reflexivity|].
  destruct (execute_python_code code t None s). reflexivity.
Qed.

Lemma handle_legacy_format_other m c s :
  m !! "code" = Some c -> (forall code, c <> JStr code) ->
  handle_legacy_format (JObj m) s
    = ((Failure "'code' parameter must be a string", 400), s).
Proof.
  intros Hc Hstr. unfold Adapter.handle_legacy_format. cbn. rewrite Hc.
  destruct c; try reflexivity. destruct (Hstr _ eq_refl).
Qed.

Lemma handle_legacy_format_calls data s :
  exists new,
    Engine.calls (handle_legacy_format data s).2 = Engine.calls s ++ new /\
    Forall adapter_timeout new.
Proof.
  assert (Hnone : exists new : list (string * pyint),
             Engine.calls s = Engine.calls s ++ new /\
             Forall adapter_timeout new).
  { exists []. rewrite app_nil_r. split; [reflexivity|constructor]. }
  destruct data as [| | | | | |m]; try exact Hnone.
  destruct (m !! "code") as [c|] eqn:Hc.
  2:{ unfold Adapter.handle_legacy_format. cbn. rewrite Hc. exact Hnone. }
  destruct c as [| | | |code| |];
    try (rewrite (handle_legacy_format_other _ _ _ Hc) by discriminate;
         exact Hnone).
  rewrite (handle_legacy_format_string _ _ _ Hc).
  destruct (as_int _) as [t|]; [|exact Hnone].
  destruct (_ || _) eqn:Hrange; [exact Hnone|].
  exists [(code, t)]. split; [apply engine_calls|].
  constructor; [|constructor]. right. cbn. lia.
Qed.



(** A body that is no object never reaches the engine. *)
Lemma non_object_body data s :
  (forall m, data <> JObj m) ->
  (execute_code data s).2 = s /\
  ((execute_code data s).1.2 = 400 \/ (execute_code data s).1.2 = 500).
Proof.
  intros Hobj. unfold Adapter.execute_code.
  destruct (truthy data); cbn; [|auto].
  destruct data as [| | | |str|l|m]; cbn; auto.
  - destruct (String.index 0 "data" str); cbn; auto.
    destruct (String.index 0 "code" str); cbn; auto.
  - destruct (existsb _ l); cbn; auto.
    destruct (existsb _ l); cbn; auto.
  - destruct (Hobj m eq_refl).
Qed.


(** *** The properties *)


(** X7. A single-mode request whose code is not a string is answered 400
    with the message about the code, whatever its timeout field holds,
    and the engine is not called. *)
Theorem non_string_code_rejected m c s :
  m !! "data" = None ->
  m !! "code" = Some c ->
  (forall code, c <> JStr code) ->
  execute_code (JObj m) s
    = ((Failure "'code' parameter must be a string", 400), s).
Proof.
  intros Hd Hc Hstr. rewrite (execute_code_single _ _ _ _ _ Hd Hc).
  apply (handle_legacy_format_other m c s Hc Hstr).
Qed.

(** X8. Whatever the body, the calls logged before the request stay, and
    every call the request adds is made with the timeout 600 or with an
    [int] instance whose value lies from 1 to 300. *)
Theorem engine_timeouts_bounded data s :
  exists new,
    Engine.calls (execute_code data s).2 = Engine.calls s ++ new /\
    Forall (fun c : string * pyint =>
              c.2 = PInt 600 \/ 1 <= int_value c.2 <= 300) new.
Proof.
  assert (Hnone : exists new : list (string * pyint),
             Engine.calls s = Engine.calls s ++ new /\
             Forall adapter_timeout new).
  { exists []. rewrite app_nil_r. split; [reflexivity|constructor]. }
  unfold Adapter.execute_code.
  destruct (truthy data); cbn; [|exact Hnone].
  destruct (py_in "data" data) as [e|[|]]; [exact Hnone| |].
  { apply handle_snowflake_format_calls. }
  destruct (py_in "code" data) as [e|[|]]; [exact Hnone| |exact Hnone].
  apply handle_legacy_format_calls.
Qed.

(** X9. A body that is not a JSON object never reaches the engine: the
    state is as before and the status is 400 or 500. *)
Theorem non_object_body_not_executed data s :
  (forall m, data <> JObj m) ->
  (execute_code data s).2 = s /\
  ((execute_code data s).1.2 = 400 \/ (execute_code data s).1.2 = 500).
Proof. apply non_object_body. Qed.


(** X11. An object with neither a "data" nor a "code" key is answered
    400 without a call to the engine: "Missing request body" when it is
    empty, the message about the request format otherwise. *)
Theorem object_without_fields_rejected m s :
  m !! "data" = None ->
  m !! "code" = None ->
  (m = ∅ ->
   execute_code (JObj m) s = ((Failure "Missing request body", 400), s)) /\
  (m <> ∅ ->
   execute_code (JObj m) s
     = ((Failure "Invalid request format. Expected 'data' array (Snowflake format) or 'code' string (legacy format)", 400), s)).
Proof.
  intros Hd Hc. unfold Adapter.execute_code. split.
  - intros ->. reflexivity.
  - intros Hne. cbn.
    replace (size m =? 0)%nat with false.
    + cbn. rewrite Hd, Hc. reflexivity.
    + symmetry. apply Nat.eqb_neq. intros Hsize.
      apply Hne, map_size_empty_iff, Hsize.
Qed.

(** X12. A "data" field that is not an array is answered 400 with
    "'data' must be an array", without a call to the engine, also when a
    "code" field stands beside it. *)
Theorem data_not_array_rejected m d s :
  m !! "data" = Some d ->
  (forall rows, d <> JList rows) ->
  execute_code (JObj m) s = ((Failure "'data' must be an array", 400), s).
Proof.
  intros Hd Hlist. rewrite (execute_code_batch _ _ _ _ _ Hd).
  unfold Adapter.handle_snowflake_format. cbn. rewrite Hd. cbn.
  destruct d; try reflexivity. destruct (Hlist _ eq_refl).
Qed.



End AdapterCases.


(** X7 at a code that is a number beside a timeout that is a string. *)
Lemma non_string_code_rejected_witness :
  Demo.execute_code (JObj Bodies.bad_code_bad_timeout) Demo.s0
    = ((Failure "'code' parameter must be a string", 400), Demo.s0).
Proof.
  apply (non_string_code_rejected Demo.run_thread Demo.time_time
           Bodies.bad_code_bad_timeout (JInt 42) Demo.s0).
  - reflexivity.
  - reflexivity.
  - discriminate.
Defined.

(** X9 at the body ["data"], a list. *)
Lemma non_object_body_witness :
  (Demo.execute_code (JList [JStr "data"]) Demo.s0).2 = Demo.s0 /\
  ((Demo.execute_code (JList [JStr "data"]) Demo.s0).1.2 = 400 \/
   (Demo.execute_code (JList [JStr "data"]) Demo.s0).1.2 = 500).
Proof.
  apply (non_object_body_not_executed Demo.run_thread Demo.time_time
           (JList [JStr "data"]) Demo.s0).
  discriminate.
Defined.


(** X11 at an object with a timeout only. *)
Lemma object_without_fields_witness :
  Demo.execute_code (JObj Bodies.timeout_only) Demo.s0
    = ((Failure "Invalid request format. Expected 'data' array (Snowflake format) or 'code' string (legacy format)", 400), Demo.s0).
Proof.
  apply (proj2 (object_without_fields_rejected Demo.run_thread Demo.time_time
                  Bodies.timeout_only Demo.s0 eq_refl eq_refl)).
  intros Hempty.
  apply (f_equal (fun m : gmap string json => m !! "timeout")) in Hempty.
  vm_compute in Hempty. discriminate.
Defined.

(** X12 at a "data" field that is a string. *)
Lemma data_not_array_witness :
  Demo.execute_code (JObj Bodies.data_is_string) Demo.s0
    = ((Failure "'data' must be an array", 400), Demo.s0).
Proof.
  apply (data_not_array_rejected Demo.run_thread Demo.time_time
           Bodies.data_is_string (JStr "print(1)") Demo.s0).
  - reflexivity.
  - discriminate.
Defined.


